(** * The crash-reporter binding of the browser process

    A shallow embedding of [shell/browser/api/electron_api_crash_reporter.cc].

    The file keeps two pieces of process-wide state of its own
    ([g_crash_reporter_initialized] and the table behind
    [GetGlobalCrashKeysMutable]) and otherwise drives collaborators that live
    elsewhere: the crash-key table of [electron::crash_keys], the consent flag
    of [ElectronCrashReporterClient], the two crash backends ([breakpad::],
    [crash_reporter::]) and the upload lists.  The embedding threads a [World]
    through every function.  A world holds the file's own state, the state of
    the collaborators, the posted-but-not-yet-run load tasks, and a [trace]
    that records, oldest first, every effect the file performed. *)

From Stdlib Require Import ZArith.
From stdpp Require Import gmap strings list fin_maps sorting.

Open Scope string_scope.
Open Scope list_scope.

(** ** Data *)

(** [base::Time], as its internal tick count. *)
Definition base_Time := Z.

(** [base::FilePath]. *)
Definition FilePath := string.

(** The fields of [UploadList::UploadInfo] that this file reads. *)
Record UploadInfo := mkUploadInfo {
  upload_time : base_Time;
  upload_id : string
}.

(** The platform macros the file branches on. *)
Inductive OS := OS_MACOSX | OS_WIN | OS_LINUX.

(** The two [UploadList] subclasses that [CreateCrashUploadList] constructs. *)
Inductive UploadList :=
| CrashUploadListCrashpad
| TextLogUploadList (upload_log_path : FilePath).

(** What [gin::DataObjectBuilder] is given as property values here. *)
Inductive V8Value :=
| V8Date (t : base_Time)
| V8String (s : string).

(** A data object: its properties in the order they were [Set]. *)
Definition V8Object := list (string * V8Value).

(** A [base::OnceCallback<void(v8::Local<v8::Value>)>], by identity. *)
Definition OnceCallback := nat.

(** The eight parameters of [Start]. *)
Record StartArgs := mkStartArgs {
  submit_url : string;
  crashes_directory : string;
  upload_to_server : bool;
  ignore_system_crash_handler : bool;
  rate_limit : bool;
  compress : bool;
  extra_global : gmap string string;
  extra : gmap string string
}.

(** Everything the file reads from its surroundings without changing it.
    The two constants and [AppendASCII] are declared outside this file and
    are taken as they come. *)
Record Env := mkEnv {
  (** [crash_reporter::IsCrashpadEnabled()] *)
  IsCrashpadEnabled : bool;
  (** [::switches::kProcessType] *)
  kProcessType : string;
  (** [base::CommandLine::ForCurrentProcess()->GetSwitchValueASCII(_)] *)
  GetSwitchValueASCII : string -> string;
  (** [base::PathService::Get(chrome::DIR_CRASH_DUMPS, &path)]: the success
      flag and the contents of [path] afterwards, given its contents before. *)
  PathService_Get_DIR_CRASH_DUMPS : FilePath -> bool * FilePath;
  (** [CrashUploadList::kReporterLogFilename] *)
  kReporterLogFilename : string;
  (** [base::FilePath::AppendASCII] *)
  AppendASCII : FilePath -> string -> FilePath
}.

(** ** Effects *)

(** One entry per effect the file performs: an assignment to the global
    crash-key table, a call into a collaborator, or a run of a callback. *)
Inductive Event :=
| GlobalCrashKeysAssign (key value : string)
| SetCollectStatsConsent (upload : bool)
| InitializeCrashpad (initial_client : bool) (process_type : string)
| SetUploadURL (url : string)
| InitCrashReporter (process_type : string)
| SetCrashKey (key value : string)
| ClearCrashKey (key : string)
| Run (callback : OnceCallback) (v8_result : list V8Object).

(** The backend that was brought up, with the arguments it was given. *)
Inductive ReporterBackend :=
| StructuredBackend (is_embedder_process : bool) (process_role : string)
| LegacyBackend (process_role : string).

(** Modelled from the spec: the state owned by the collaborators, none of
    whose sources are at hand: the consent flag, the crash-key table, the
    submission URL and the chosen backend, and what each upload list's
    backing store holds ([None] for a store that is missing or unreadable). *)
Record Collaborators := mkCollaborators {
  collect_stats_consent : bool;
  crash_keys : gmap string string;
  upload_url : option string;
  backend : option ReporterBackend;
  upload_store : UploadList -> option (list UploadInfo)
}.

(** Modelled from the spec: the collaborators' side of every call.  Missing
    from the sources at hand are [electron::crash_keys::SetCrashKey] and
    [ClearCrashKey] (shell/common/crash_keys), the consent accessors of
    [ElectronCrashReporterClient] (shell/app), and the initialisers of the two
    backends.  Following the spec: the key table is a map from name to value
    in which a later set overwrites and removing an absent key does nothing;
    consent is a single boolean that is overwritten unconditionally; a legacy
    backend remembers its submission URL; initialising fixes the backend. *)
Definition collab_step (e : Event) (c : Collaborators) : Collaborators :=
  match e with
  | GlobalCrashKeysAssign _ _ => c
  | SetCollectStatsConsent upload =>
      mkCollaborators upload (crash_keys c) (upload_url c) (backend c)
                      (upload_store c)
  | InitializeCrashpad initial_client process_type =>
      mkCollaborators (collect_stats_consent c) (crash_keys c) (upload_url c)
                      (Some (StructuredBackend initial_client process_type))
                      (upload_store c)
  | SetUploadURL url =>
      mkCollaborators (collect_stats_consent c) (crash_keys c) (Some url)
                      (backend c) (upload_store c)
  | InitCrashReporter process_type =>
      mkCollaborators (collect_stats_consent c) (crash_keys c) (upload_url c)
                      (Some (LegacyBackend process_type)) (upload_store c)
  | SetCrashKey key value =>
      mkCollaborators (collect_stats_consent c) (<[key:=value]> (crash_keys c))
                      (upload_url c) (backend c) (upload_store c)
  | ClearCrashKey key =>
      mkCollaborators (collect_stats_consent c) (delete key (crash_keys c))
                      (upload_url c) (backend c) (upload_store c)
  | Run _ _ => c
  end.

(** A posted load: the list being loaded and the callback bound with it. *)
Record Task := mkTask {
  task_list : UploadList;
  task_callback : OnceCallback
}.

Record World := mkWorld {
  g_crash_reporter_initialized : bool;
  global_crash_keys : gmap string string;
  collab : Collaborators;
  pending : list Task;
  trace : list Event
}.

(** The process as it starts: nothing initialised, no keys, consent unset. *)
Definition initial_world (store : UploadList -> option (list UploadInfo)) : World :=
  mkWorld false ∅ (mkCollaborators false ∅ None None store) [] [].

(** Performing a call: the collaborator reacts and the trace grows. *)
Definition call (e : Event) (w : World) : World :=
  mkWorld (g_crash_reporter_initialized w) (global_crash_keys w)
          (collab_step e (collab w)) (pending w) (trace w ++ [e]).

(** [global_crash_keys[key] = value;] *)
Definition assign_global_crash_key (key value : string) (w : World) : World :=
  mkWorld (g_crash_reporter_initialized w)
          (<[key:=value]> (global_crash_keys w))
          (collab w) (pending w)
          (trace w ++ [GlobalCrashKeysAssign key value]).

(** [g_crash_reporter_initialized = true;] *)
Definition set_initialized (w : World) : World :=
  mkWorld true (global_crash_keys w) (collab w) (pending w) (trace w).

(** ** Iterating a [std::map]

    A range-for over a [std::map<std::string, std::string>] visits the pairs
    in ascending key order, keys compared byte by byte. *)
Definition key_le (p q : string * string) : Prop :=
  String.leb p.1 q.1 = true.

#[global] Instance key_le_dec p q : Decision (key_le p q).
Proof. unfold key_le. apply _. Defined.

Definition pairs_of (m : gmap string string) : list (string * string) :=
  merge_sort key_le (map_to_list m).

Definition for_each_pair (body : string -> string -> World -> World)
    (m : gmap string string) (w : World) : World :=
  foldl (fun w p => body p.1 p.2 w) w (pairs_of m).

(** ** The functions of the file *)

Definition IsCrashReporterEnabled (w : World) : bool :=
  g_crash_reporter_initialized w.

(** Compiled on [OS_LINUX] only. *)
Definition GetGlobalCrashKeys (w : World) : gmap string string :=
  global_crash_keys w.

(** One [SetCrashKey] per pair of the map, in the map's order. *)
Definition SetCrashKeysFromMap (extra : gmap string string) : World -> World :=
  for_each_pair (fun k v => call (SetCrashKey k v)) extra.

(** Both consent functions forward to [ElectronCrashReporterClient::Get()]. *)
Definition SetUploadToServer (upload : bool) : World -> World :=
  call (SetCollectStatsConsent upload).

Definition GetUploadToServer (w : World) : bool :=
  collect_stats_consent (collab w).

(** [std::string::empty] *)
Module std_string.
Definition empty (s : string) : bool :=
  match s with
  | EmptyString => true
  | String _ _ => false
  end.
End std_string.

(** [Start]: the guard on the flag, then the flag, the consent, the process
    type from the command line, and one of the two backend branches. *)
Definition Start (env : Env) (a : StartArgs) (w : World) : World :=
  if g_crash_reporter_initialized w then w
  else
    let w := set_initialized w in
    let w := SetUploadToServer (upload_to_server a) w in
    let process_type := GetSwitchValueASCII env (kProcessType env) in
    if IsCrashpadEnabled env then
      call (InitializeCrashpad (std_string.empty process_type) process_type) w
    else
      let w := call (SetUploadURL (submit_url a)) w in
      let w := for_each_pair assign_global_crash_key (extra_global a) w in
      let w := SetCrashKeysFromMap (extra a) w in
      let w := SetCrashKeysFromMap (extra_global a) w in
      call (InitCrashReporter process_type) w.

(** A run of [Start] calls. *)
Definition starts (env : Env) (calls : list StartArgs) (w : World) : World :=
  foldl (fun w a => Start env a w) w calls.

(** [CreateCrashUploadList]: the first arm is the [#if] on [OS_MACOSX] and
    [OS_WIN], the second its [#else].  [crash_dir_path] starts out empty and
    the result flag of the path service is not looked at. *)
Definition CreateCrashUploadList (os : OS) (env : Env) : UploadList :=
  match os with
  | OS_MACOSX | OS_WIN => CrashUploadListCrashpad
  | OS_LINUX =>
      if IsCrashpadEnabled env then CrashUploadListCrashpad
      else
        let crash_dir_path := (PathService_Get_DIR_CRASH_DUMPS env "").2 in
        let upload_log_path :=
          AppendASCII env crash_dir_path (kReporterLogFilename env) in
        TextLogUploadList upload_log_path
  end.

(** Modelled from the spec: [UploadList::Load], declared in
    components/upload_list and missing here.  It dispatches the load off the
    caller and runs the bound closure later, once, on completion. *)
Definition UploadList_Load (list_ : UploadList) (callback : OnceCallback) (w : World) : World :=
  mkWorld (g_crash_reporter_initialized w) (global_crash_keys w) (collab w)
          (pending w ++ [mkTask list_ callback]) (trace w).

(** Modelled from the spec: what a completed load has read.  A store that is
    missing or cannot be read completes with no records. *)
Definition loaded_uploads (list_ : UploadList) (w : World) : list UploadInfo :=
  default [] (upload_store (collab w) list_).

(** Modelled from the spec: [UploadList::GetUploads], missing here.  It hands
    out at most [max_count] of the loaded records, in the store's order. *)
Definition GetUploads (max_count : nat) (list_ : UploadList) (w : World)
    : list UploadInfo :=
  take max_count (loaded_uploads list_ w).

(** The object built for one upload. *)
Definition report_object (upload : UploadInfo) : V8Object :=
  [("date", V8Date (upload_time upload)); ("id", V8String (upload_id upload))].

(** The closure that [GetUploadedReports] binds and hands to [Load]. *)
Definition on_load_complete (list_ : UploadList) (callback : OnceCallback)
    (w : World) : World :=
  let uploads := GetUploads 100 list_ w in
  let result := report_object <$> uploads in
  call (Run callback result) w.

(** [GetUploadedReports]: construct the list and post its load, with the
    closure above bound to the list and the callback. *)
Definition GetUploadedReports (os : OS) (env : Env) (callback : OnceCallback)
    (w : World) : World :=
  let list_ := CreateCrashUploadList os env in
  UploadList_Load list_ callback w.

(** ** The message loop *)

(** Modelled from the spec: the completion of the oldest posted load, if
    there is one.  The collaborator's task runner is missing here. *)
Definition run_next_task (w : World) : World :=
  match pending w with
  | [] => w
  | t :: rest =>
      on_load_complete (task_list t) (task_callback t)
        (mkWorld (g_crash_reporter_initialized w) (global_crash_keys w)
                 (collab w) rest (trace w))
  end.

(** Modelled from the spec: the completion of every posted load, oldest
    first. *)
Fixpoint run_tasks (ts : list Task) (w : World) : World :=
  match ts with
  | [] => w
  | t :: ts' => run_tasks ts' (on_load_complete (task_list t) (task_callback t) w)
  end.

(** Modelled from the spec: the message loop run until nothing is posted. *)
Definition run_until_idle (w : World) : World :=
  run_tasks (pending w)
    (mkWorld (g_crash_reporter_initialized w) (global_crash_keys w)
             (collab w) [] (trace w)).

(** ** The exported methods

    What [Initialize] installs on the exports object, plus one step of the
    message loop. *)
Inductive Op :=
| start (a : StartArgs)
| addExtraParameter (key value : string)
| removeExtraParameter (key : string)
| getUploadedReports (callback : OnceCallback)
| setUploadToServer (upload : bool)
| getUploadToServer
| message_loop_step.

Definition AddExtraParameter (key value : string) : World -> World :=
  call (SetCrashKey key value).

Definition RemoveExtraParameter (key : string) : World -> World :=
  call (ClearCrashKey key).

Definition step (os : OS) (env : Env) (op : Op) (w : World) : World :=
  match op with
  | start a => Start env a w
  | addExtraParameter key value => AddExtraParameter key value w
  | removeExtraParameter key => RemoveExtraParameter key w
  | getUploadedReports callback => GetUploadedReports os env callback w
  | setUploadToServer upload => SetUploadToServer upload w
  | getUploadToServer => w
  | message_loop_step => run_next_task w
  end.

Definition run (os : OS) (env : Env) (ops : list Op) (w : World) : World :=
  foldl (fun w op => step os env op w) w ops.

(** [obj.Get(name)] on a data object. *)
Fixpoint get_property (name : string) (o : V8Object) : option V8Value :=
  match o with
  | [] => None
  | (n, v) :: o' => if String.eqb n name then Some v else get_property name o'
  end.

Definition is_start (op : Op) : bool :=
  match op with start _ => true | _ => false end.

Definition is_setUploadToServer (op : Op) : bool :=
  match op with setUploadToServer _ => true | _ => false end.

Definition is_consent_event (e : Event) : bool :=
  match e with SetCollectStatsConsent _ => true | _ => false end.

(** How many times a callback has been run so far. *)
Fixpoint count_runs (callback : OnceCallback) (tr : list Event) : nat :=
  match tr with
  | [] => 0
  | Run cb _ :: tr' =>
      (if Nat.eqb cb callback then 1 else 0) + count_runs callback tr'
  | _ :: tr' => count_runs callback tr'
  end.

(** ** Sample processes

    A renderer on the legacy path and a browser process on the structured
    path, with the arguments of the spec's scenario. *)
Definition legacy_env : Env :=
  mkEnv false "type" (fun _ => "renderer") (fun _ => (true, "/tmp/crashes"))
        "uploads.log" (fun dir name => String.append dir (String.append "/" name)).

Definition crashpad_env : Env :=
  mkEnv true "type" (fun _ => "") (fun _ => (true, "/tmp/crashes"))
        "uploads.log" (fun dir name => String.append dir (String.append "/" name)).

Definition scenario_args : StartArgs :=
  mkStartArgs "https://example.test/submit" "/tmp/crashes" true false true false
              {["env" := "prod"]} {["build" := "123"]}.

(** The scenario with the four remaining arguments changed. *)
Definition scenario_args_varied : StartArgs :=
  mkStartArgs "https://example.test/submit" "/elsewhere" true true false true
              {["env" := "prod"]} {["build" := "123"]}.

Definition other_args : StartArgs :=
  mkStartArgs "https://other.test/" "/var/crashes" false true false true
              {["env" := "dev"]} ∅.

Definition sample_store (l : UploadList) : option (list UploadInfo) :=
  match l with
  | CrashUploadListCrashpad => Some [mkUploadInfo 1600000000%Z "abc123"]
  | TextLogUploadList _ => None
  end.

Definition sample_before : list Op :=
  [addExtraParameter "a" "b"; getUploadedReports 1; message_loop_step;
   setUploadToServer true; getUploadToServer].

Definition sample_after : list Op :=
  [start other_args; removeExtraParameter "env"; getUploadedReports 2;
   message_loop_step; addExtraParameter "build" "124"].

(** ** Reading runs and traces *)

(** The arguments of the first [start] among the operations. *)
Fixpoint first_start (ops : list Op) : option StartArgs :=
  match ops with
  | [] => None
  | start a :: _ => Some a
  | _ :: ops' => first_start ops'
  end.

(** The consent values that the operations hand over, in call order: one per
    [setUploadToServer], and one for a [start] that finds the flag unset. *)
Fixpoint consent_writes (initialized : bool) (ops : list Op) : list bool :=
  match ops with
  | [] => []
  | start a :: ops' =>
      (if initialized then [] else [upload_to_server a])
      ++ consent_writes true ops'
  | setUploadToServer upload :: ops' => upload :: consent_writes initialized ops'
  | _ :: ops' => consent_writes initialized ops'
  end.

(** The two backend initialisers. *)
Definition is_backend_init (e : Event) : bool :=
  match e with
  | InitializeCrashpad _ _ | InitCrashReporter _ => true
  | _ => false
  end.

(** The initialiser of the backend that [Start] chooses in [env]. *)
Definition backend_init_event (env : Env) : Event :=
  let process_type := GetSwitchValueASCII env (kProcessType env) in
  if IsCrashpadEnabled env
  then InitializeCrashpad (std_string.empty process_type) process_type
  else InitCrashReporter process_type.

(** Events by which [Start] would undo or complete something done before it. *)
Definition is_clear_or_run (e : Event) : bool :=
  match e with
  | ClearCrashKey _ | Run _ _ => true
  | _ => false
  end.

(** The value carried by the last [SetCrashKey] for [key] in a trace, or
    [acc] when there is none. *)
Definition last_SetCrashKey_from (acc : option string) (key : string)
    (tr : list Event) : option string :=
  foldl (fun acc e =>
           match e with
           | SetCrashKey k v => if decide (k = key) then Some v else acc
           | _ => acc
           end) acc tr.

Definition last_SetCrashKey (key : string) (tr : list Event) : option string :=
  last_SetCrashKey_from None key tr.


(** Every entry of the global table has been set as a crash key. *)
Definition mirrored (w : World) : Prop :=
  forall k v, global_crash_keys w !! k = Some v -> SetCrashKey k v ∈ trace w.

(** ** [Initialize]

    The functions that [Initialize] binds, and the six [SetMethod] calls in
    the order of the source.  [gin_helper::Dictionary] is declared elsewhere:
    the dictionary type and its [SetMethod] are taken as they come. *)
Inductive BoundFunction :=
| bind_Start
| bind_SetCrashKey
| bind_ClearCrashKey
| bind_GetUploadedReports
| bind_SetUploadToServer
| bind_GetUploadToServer.

Definition Initialize {Dict : Type}
    (SetMethod : string -> BoundFunction -> Dict -> Dict) (dict : Dict) : Dict :=
  let dict := SetMethod "start" bind_Start dict in
  let dict := SetMethod "addExtraParameter" bind_SetCrashKey dict in
  let dict := SetMethod "removeExtraParameter" bind_ClearCrashKey dict in
  let dict := SetMethod "getUploadedReports" bind_GetUploadedReports dict in
  let dict := SetMethod "setUploadToServer" bind_SetUploadToServer dict in
  SetMethod "getUploadToServer" bind_GetUploadToServer dict.

(** The names under which [Initialize] installs something. *)
Definition exported_names : list string :=
  ["start"; "addExtraParameter"; "removeExtraParameter"; "getUploadedReports";
   "setUploadToServer"; "getUploadToServer"].

(** The name an operation is called by and the function bound to it. *)
Definition op_binding (op : Op) : option (string * BoundFunction) :=
  match op with
  | start _ => Some ("start", bind_Start)
  | addExtraParameter _ _ => Some ("addExtraParameter", bind_SetCrashKey)
  | removeExtraParameter _ => Some ("removeExtraParameter", bind_ClearCrashKey)
  | getUploadedReports _ => Some ("getUploadedReports", bind_GetUploadedReports)
  | setUploadToServer _ => Some ("setUploadToServer", bind_SetUploadToServer)
  | getUploadToServer => Some ("getUploadToServer", bind_GetUploadToServer)
  | message_loop_step => None
  end.

(** ** More sample data *)

(** Arguments whose two maps disagree on a key. *)
Definition clashing_args : StartArgs :=
  mkStartArgs "https://example.test/submit" "/tmp/crashes" false false false false
              {["env" := "prod"; "channel" := "beta"]}
              {["env" := "local"; "build" := "123"]}.

(** A process whose crash-dump directory cannot be resolved. *)
Definition unresolved_env : Env :=
  mkEnv false "type" (fun _ => "renderer") (fun path => (false, path))
        "uploads.log"
        (fun dir name =>
           if std_string.empty dir then name
           else String.append dir (String.append "/" name)).

(** An exports object as a finite map from names to bound functions. *)
Definition gmap_SetMethod (name : string) (f : BoundFunction)
    (dict : gmap string BoundFunction) : gmap string BoundFunction :=
  <[name:=f]> dict.

#[global] Instance OS_eq_dec : EqDecision OS.
Proof. solve_decision. Defined.

(** * Properties *)

(** ** The loops over a map *)

Section Loops.
Implicit Types (l : list (string * string)) (w : World).

Lemma foldl_call_flag (ev : string -> string -> Event) l w :
  g_crash_reporter_initialized (foldl (fun w p => call (ev p.1 p.2) w) w l)
  = g_crash_reporter_initialized w.
Proof. revert w; induction l as [|p l IH]; intros w; simpl; [done|]. by rewrite IH. Qed.

Lemma foldl_call_global (ev : string -> string -> Event) l w :
  global_crash_keys (foldl (fun w p => call (ev p.1 p.2) w) w l)
  = global_crash_keys w.
Proof. revert w; induction l as [|p l IH]; intros w; simpl; [done|]. by rewrite IH. Qed.

Lemma foldl_call_pending (ev : string -> string -> Event) l w :
  pending (foldl (fun w p => call (ev p.1 p.2) w) w l) = pending w.
Proof. revert w; induction l as [|p l IH]; intros w; simpl; [done|]. by rewrite IH. Qed.

Lemma foldl_call_trace (ev : string -> string -> Event) l w :
  trace (foldl (fun w p => call (ev p.1 p.2) w) w l)
  = trace w ++ (uncurry ev <$> l).
Proof.
  revert w; induction l as [|[k v] l IH]; intros w; simpl.
  - by rewrite app_nil_r.
  - rewrite IH. simpl. by rewrite <- app_assoc.
Qed.

Lemma foldl_call_collab (ev : string -> string -> Event) l w :
  collab (foldl (fun w p => call (ev p.1 p.2) w) w l)
  = foldl (fun c p => collab_step (ev p.1 p.2) c) (collab w) l.
Proof. revert w; induction l as [|p l IH]; intros w; simpl; [done|]. by rewrite IH. Qed.

Lemma foldl_assign_flag l w :
  g_crash_reporter_initialized
    (foldl (fun w p => assign_global_crash_key p.1 p.2 w) w l)
  = g_crash_reporter_initialized w.
Proof. revert w; induction l as [|p l IH]; intros w; simpl; [done|]. by rewrite IH. Qed.

Lemma foldl_assign_collab l w :
  collab (foldl (fun w p => assign_global_crash_key p.1 p.2 w) w l) = collab w.
Proof. revert w; induction l as [|p l IH]; intros w; simpl; [done|]. by rewrite IH. Qed.

Lemma foldl_assign_pending l w :
  pending (foldl (fun w p => assign_global_crash_key p.1 p.2 w) w l) = pending w.
Proof. revert w; induction l as [|p l IH]; intros w; simpl; [done|]. by rewrite IH. Qed.

Lemma foldl_assign_trace l w :
  trace (foldl (fun w p => assign_global_crash_key p.1 p.2 w) w l)
  = trace w ++ (uncurry GlobalCrashKeysAssign <$> l).
Proof.
  revert w; induction l as [|[k v] l IH]; intros w; simpl.
  - by rewrite app_nil_r.
  - rewrite IH. simpl. by rewrite <- app_assoc.
Qed.

Lemma foldl_assign_global l w :
  global_crash_keys (foldl (fun w p => assign_global_crash_key p.1 p.2 w) w l)
  = foldl (fun m p => <[p.1:=p.2]> m) (global_crash_keys w) l.
Proof. revert w; induction l as [|p l IH]; intros w; simpl; [done|]. by rewrite IH. Qed.
End Loops.

(** ** The pairs of a map *)

Lemma pairs_of_Permutation (m : gmap string string) :
  pairs_of m ≡ₚ map_to_list m.
Proof. apply merge_sort_Permutation. Qed.

(** Every pair of the map is visited, and nothing else. *)
Lemma elem_of_pairs_of (m : gmap string string) (k v : string) :
  (k, v) ∈ pairs_of m <-> m !! k = Some v.
Proof. rewrite pairs_of_Permutation. apply elem_of_map_to_list. Qed.

(** No key is visited twice. *)
Lemma NoDup_fst_pairs_of (m : gmap string string) : NoDup (pairs_of m).*1.
Proof. rewrite pairs_of_Permutation. apply NoDup_fst_map_to_list. Qed.

#[global] Instance key_le_total : Total key_le.
Proof. intros p q. apply String.leb_total. Qed.

(** The visit goes up the keys. *)
Lemma pairs_of_Sorted (m : gmap string string) : Sorted key_le (pairs_of m).
Proof. apply (Sorted_merge_sort key_le). Qed.

(** Assigning pairs one after another: the later assignment wins. *)
Lemma foldl_insert_union (l : list (string * string)) (t : gmap string string) :
  foldl (fun acc p => <[p.1:=p.2]> acc) t l = list_to_map (reverse l) ∪ t.
Proof.
  induction l as [|[k v] l IH] using rev_ind; simpl.
  - by rewrite (left_id_L ∅ (∪)).
  - rewrite foldl_snoc, IH, reverse_snoc. simpl. by rewrite insert_union_l.
Qed.

(** Assigning the pairs of [m] into [t] yields [m] merged over [t]. *)
Lemma foldl_insert_pairs_of (m t : gmap string string) :
  foldl (fun acc p => <[p.1:=p.2]> acc) t (pairs_of m) = m ∪ t.
Proof.
  rewrite foldl_insert_union. f_equal.
  rewrite <- (list_to_map_to_list m) at 2.
  apply list_to_map_proper.
  - rewrite fmap_reverse, reverse_Permutation. apply NoDup_fst_pairs_of.
  - rewrite reverse_Permutation. apply pairs_of_Permutation.
Qed.

(** ** [Start] *)

Lemma Start_again (env : Env) (a : StartArgs) (w : World) :
  g_crash_reporter_initialized w = true -> Start env a w = w.
Proof. intros H. unfold Start. by rewrite H. Qed.

Lemma Start_initializes (env : Env) (a : StartArgs) (w : World) :
  g_crash_reporter_initialized (Start env a w) = true.
Proof.
  unfold Start. destruct (g_crash_reporter_initialized w) eqn:Hw; [done|].
  destruct (IsCrashpadEnabled env); simpl; [done|].
  unfold SetCrashKeysFromMap, for_each_pair.
  by rewrite !foldl_call_flag, foldl_assign_flag.
Qed.

Lemma Start_crashpad (env : Env) (a : StartArgs) (w : World) :
  g_crash_reporter_initialized w = false ->
  IsCrashpadEnabled env = true ->
  Start env a w =
    let process_type := GetSwitchValueASCII env (kProcessType env) in
    call (InitializeCrashpad (std_string.empty process_type) process_type)
      (SetUploadToServer (upload_to_server a) (set_initialized w)).
Proof. intros Hw He. unfold Start. by rewrite Hw, He. Qed.

Lemma Start_legacy_trace (env : Env) (a : StartArgs) (w : World) :
  g_crash_reporter_initialized w = false ->
  IsCrashpadEnabled env = false ->
  trace (Start env a w) =
    trace w
    ++ [SetCollectStatsConsent (upload_to_server a); SetUploadURL (submit_url a)]
    ++ (uncurry GlobalCrashKeysAssign <$> pairs_of (extra_global a))
    ++ (uncurry SetCrashKey <$> pairs_of (extra a))
    ++ (uncurry SetCrashKey <$> pairs_of (extra_global a))
    ++ [InitCrashReporter (GetSwitchValueASCII env (kProcessType env))].
Proof.
  intros Hw He. unfold Start. rewrite Hw, He. simpl.
  unfold SetCrashKeysFromMap, for_each_pair.
  rewrite !foldl_call_trace, foldl_assign_trace. simpl.
  by rewrite <- !app_assoc.
Qed.

Lemma Start_legacy_global (env : Env) (a : StartArgs) (w : World) :
  g_crash_reporter_initialized w = false ->
  IsCrashpadEnabled env = false ->
  global_crash_keys (Start env a w) = extra_global a ∪ global_crash_keys w.
Proof.
  intros Hw He. unfold Start. rewrite Hw, He. simpl.
  unfold SetCrashKeysFromMap, for_each_pair.
  rewrite !foldl_call_global, foldl_assign_global. simpl.
  apply foldl_insert_pairs_of.
Qed.

(** What the collaborators hold after a first [Start] on the legacy path,
    under the model of their reactions. *)
Lemma foldl_SetCrashKey_collab (l : list (string * string)) (c : Collaborators) :
  foldl (fun c p => collab_step (SetCrashKey p.1 p.2) c) c l =
    mkCollaborators (collect_stats_consent c)
      (foldl (fun acc p => <[p.1:=p.2]> acc) (crash_keys c) l)
      (upload_url c) (backend c) (upload_store c).
Proof.
  revert c; induction l as [|p l IH]; intros c; simpl.
  - by destruct c.
  - by rewrite IH.
Qed.

Lemma Start_legacy_collab (env : Env) (a : StartArgs) (w : World) :
  g_crash_reporter_initialized w = false ->
  IsCrashpadEnabled env = false ->
  collab (Start env a w) =
    mkCollaborators (upload_to_server a)
      (extra_global a ∪ (extra a ∪ crash_keys (collab w)))
      (Some (submit_url a))
      (Some (LegacyBackend (GetSwitchValueASCII env (kProcessType env))))
      (upload_store (collab w)).
Proof.
  intros Hw He. unfold Start. rewrite Hw, He. simpl.
  unfold SetCrashKeysFromMap, for_each_pair.
  rewrite !foldl_call_collab, foldl_assign_collab.
  rewrite !foldl_SetCrashKey_collab. simpl.
  by rewrite !foldl_insert_pairs_of.
Qed.

(** ** Later states *)

Lemma on_load_complete_flag (l : UploadList) (cb : OnceCallback) (w : World) :
  g_crash_reporter_initialized (on_load_complete l cb w)
  = g_crash_reporter_initialized w.
Proof. done. Qed.

Lemma step_keeps_initialized (os : OS) (env : Env) (op : Op) (w : World) :
  g_crash_reporter_initialized w = true ->
  g_crash_reporter_initialized (step os env op w) = true.
Proof.
  intros Hw. destruct op; simpl; try done.
  - by rewrite Start_again.
  - unfold run_next_task. by destruct (pending w).
Qed.

Lemma run_keeps_initialized (os : OS) (env : Env) (ops : list Op) (w : World) :
  g_crash_reporter_initialized w = true ->
  g_crash_reporter_initialized (run os env ops w) = true.
Proof.
  revert w. induction ops as [|op ops IH]; intros w Hw; simpl; [done|].
  apply IH. by apply step_keeps_initialized.
Qed.

Lemma step_keeps_uninitialized (os : OS) (env : Env) (op : Op) (w : World) :
  is_start op = false ->
  g_crash_reporter_initialized (step os env op w)
  = g_crash_reporter_initialized w.
Proof.
  intros Hop. destruct op; simpl; try done.
  unfold run_next_task. by destruct (pending w).
Qed.

Lemma run_keeps_uninitialized (os : OS) (env : Env) (ops : list Op) (w : World) :
  forallb (fun op => negb (is_start op)) ops = true ->
  g_crash_reporter_initialized (run os env ops w)
  = g_crash_reporter_initialized w.
Proof.
  revert w. induction ops as [|op ops IH]; intros w Hops; simpl; [done|].
  simpl in Hops. apply andb_prop in Hops as [Hop Hops].
  rewrite IH by done. apply step_keeps_uninitialized.
  by destruct (is_start op).
Qed.

Lemma starts_again (env : Env) (calls : list StartArgs) (w : World) :
  g_crash_reporter_initialized w = true -> starts env calls w = w.
Proof.
  revert w. induction calls as [|a calls IH]; intros w Hw; simpl; [done|].
  rewrite Start_again by done. by apply IH.
Qed.

(** C1. Of any sequence of [Start] calls only the first takes effect: a
    [Start] on an initialised process returns the world it was given, with the
    flag, the consent, the global key table, the backend and everything else
    as they were.  [IsCrashReporterEnabled] is false in every state reached
    without a [Start], true after the first [Start], and true in every state
    reached from there by any further operations. *)
Theorem C1_only_first_Start_takes_effect
    (os : OS) (env : Env) (store : UploadList -> option (list UploadInfo))
    (before after : list Op) (a : StartArgs) (more : list StartArgs) :
  forallb (fun op => negb (is_start op)) before = true ->
  let w_before := run os env before (initial_world store) in
  let w_first := Start env a w_before in
  let w_later := run os env after w_first in
  IsCrashReporterEnabled w_before = false
  /\ IsCrashReporterEnabled w_first = true
  /\ IsCrashReporterEnabled w_later = true
  /\ starts env (a :: more) w_before = w_first
  /\ (forall a', Start env a' w_first = w_first)
  /\ (forall a', Start env a' w_later = w_later).
Proof.
  intros Hbefore w_before w_first w_later.
  assert (Hfirst : g_crash_reporter_initialized w_first = true)
    by apply Start_initializes.
  assert (Hlater : g_crash_reporter_initialized w_later = true)
    by (by apply run_keeps_initialized).
  repeat split; try done.
  - unfold IsCrashReporterEnabled, w_before.
    by rewrite run_keeps_uninitialized.
  - simpl. by apply starts_again.
  - intros a'. by apply Start_again.
  - intros a'. by apply Start_again.
Qed.

(** ** The loaded list and the callback *)

Lemma run_tasks_snoc (ts : list Task) (t : Task) (w : World) :
  run_tasks (ts ++ [t]) w
  = on_load_complete (task_list t) (task_callback t) (run_tasks ts w).
Proof. revert w. induction ts as [|t' ts IH]; intros w; simpl; [done|]. apply IH. Qed.

Lemma run_tasks_collab (ts : list Task) (w : World) :
  collab (run_tasks ts w) = collab w.
Proof.
  revert w. induction ts as [|t ts IH]; intros w; simpl; [done|].
  rewrite IH. simpl. by destruct (collab w).
Qed.

Lemma run_tasks_pending (ts : list Task) (w : World) :
  pending (run_tasks ts w) = pending w.
Proof. revert w. induction ts as [|t ts IH]; intros w; simpl; [done|]. by rewrite IH. Qed.

Lemma run_until_idle_collab (w : World) : collab (run_until_idle w) = collab w.
Proof. unfold run_until_idle. by rewrite run_tasks_collab. Qed.

(** The loop leaves nothing posted behind. *)
Lemma run_until_idle_pending (w : World) : pending (run_until_idle w) = [].
Proof. unfold run_until_idle. by rewrite run_tasks_pending. Qed.

Lemma run_until_idle_GetUploadedReports
    (os : OS) (env : Env) (cb : OnceCallback) (w : World) :
  run_until_idle (GetUploadedReports os env cb w)
  = on_load_complete (CreateCrashUploadList os env) cb (run_until_idle w).
Proof.
  unfold run_until_idle, GetUploadedReports, UploadList_Load. simpl.
  by rewrite run_tasks_snoc.
Qed.

Lemma report_object_fields (upload : UploadInfo) :
  get_property "date" (report_object upload) = Some (V8Date (upload_time upload))
  /\ get_property "id" (report_object upload) = Some (V8String (upload_id upload)).
Proof. done. Qed.

Lemma count_runs_snoc_Run (cb : OnceCallback) (tr : list Event)
    (result : list V8Object) :
  count_runs cb (tr ++ [Run cb result]) = S (count_runs cb tr).
Proof.
  induction tr as [|e tr IH]; simpl.
  - by rewrite Nat.eqb_refl.
  - destruct e; rewrite IH; try done; destruct (Nat.eqb _ _); simpl; lia.
Qed.

(** C2. [GetUploadedReports] runs nothing inline; once the posted load has
    completed, the callback has been run exactly once more, with at most 100
    objects, each carrying a [date] that is a time and an [id] that is a
    string, taken in order from the first records of the store.  A missing
    store and an empty store both give one run with the empty sequence. *)
Theorem C2_GetUploadedReports_runs_callback_once
    (os : OS) (env : Env) (cb : OnceCallback) (w : World) :
  let list_ := CreateCrashUploadList os env in
  trace (GetUploadedReports os env cb w) = trace w
  /\ exists result : list V8Object,
       trace (run_until_idle (GetUploadedReports os env cb w))
       = trace (run_until_idle w) ++ [Run cb result]
       /\ count_runs cb (trace (run_until_idle (GetUploadedReports os env cb w)))
          = S (count_runs cb (trace (run_until_idle w)))
       /\ length result <= 100
       /\ Forall (fun o => exists t id,
                    get_property "date" o = Some (V8Date t)
                    /\ get_property "id" o = Some (V8String id)) result
       /\ match upload_store (collab w) list_ with
          | None | Some [] => result = []
          | Some uploads => result = report_object <$> take 100 uploads
          end.
Proof.
  intros list_. split; [done|].
  exists (report_object <$> take 100 (default [] (upload_store (collab w) list_))).
  assert (Htrace :
    trace (run_until_idle (GetUploadedReports os env cb w))
    = trace (run_until_idle w)
      ++ [Run cb (report_object
                    <$> take 100 (default [] (upload_store (collab w) list_)))]).
  { rewrite run_until_idle_GetUploadedReports. simpl.
    unfold GetUploads, loaded_uploads. by rewrite run_until_idle_collab. }
  repeat split.
  - done.
  - rewrite Htrace, count_runs_snoc_Run. done.
  - rewrite length_fmap, length_take. lia.
  - apply Forall_fmap, Forall_forall. intros u _. simpl.
    exists (upload_time u), (upload_id u). apply report_object_fields.
  - destruct (upload_store (collab w) list_) as [[|u us]|]; done.
Qed.

(** C3. A first [Start] with the structured backend disabled performs, after
    the consent step shared by both paths, exactly this: it hands [submit_url]
    to the legacy backend, assigns every pair of [extra_global] into the
    global key table (so that table becomes [extra_global] merged over its old
    contents), sets every pair of [extra] and then every pair of
    [extra_global] as a crash key, and last initialises the legacy backend
    with the process type read from the command line. *)
Theorem C3_Start_legacy_steps_in_order (env : Env) (a : StartArgs) (w : World) :
  g_crash_reporter_initialized w = false ->
  IsCrashpadEnabled env = false ->
  trace (Start env a w) =
    trace w
    ++ [SetCollectStatsConsent (upload_to_server a); SetUploadURL (submit_url a)]
    ++ (uncurry GlobalCrashKeysAssign <$> pairs_of (extra_global a))
    ++ (uncurry SetCrashKey <$> pairs_of (extra a))
    ++ (uncurry SetCrashKey <$> pairs_of (extra_global a))
    ++ [InitCrashReporter (GetSwitchValueASCII env (kProcessType env))]
  /\ global_crash_keys (Start env a w) = extra_global a ∪ global_crash_keys w
  /\ (forall k v, (k, v) ∈ pairs_of (extra_global a) <-> extra_global a !! k = Some v)
  /\ (forall k v, (k, v) ∈ pairs_of (extra a) <-> extra a !! k = Some v).
Proof.
  intros Hw He. repeat split.
  - by apply Start_legacy_trace.
  - by apply Start_legacy_global.
  - by apply elem_of_pairs_of.
  - by apply elem_of_pairs_of.
  - by apply elem_of_pairs_of.
  - by apply elem_of_pairs_of.
Qed.

(** ** Consent *)

Lemma step_keeps_consent (os : OS) (env : Env) (op : Op) (w : World) :
  g_crash_reporter_initialized w = true ->
  is_setUploadToServer op = false ->
  GetUploadToServer (step os env op w) = GetUploadToServer w.
Proof.
  intros Hw Hop. destruct op; simpl; try done.
  - by rewrite Start_again.
  - unfold run_next_task. by destruct (pending w).
Qed.

Lemma run_keeps_consent (os : OS) (env : Env) (ops : list Op) (w : World) :
  g_crash_reporter_initialized w = true ->
  forallb (fun op => negb (is_setUploadToServer op)) ops = true ->
  GetUploadToServer (run os env ops w) = GetUploadToServer w.
Proof.
  revert w. induction ops as [|op ops IH]; intros w Hw Hops; simpl; [done|].
  simpl in Hops. apply andb_prop in Hops as [Hop Hops].
  rewrite IH; [|by apply step_keeps_initialized|done].
  apply step_keeps_consent; [done|]. by destruct (is_setUploadToServer op).
Qed.

Lemma Forall_not_consent_fmap (ev : string -> string -> Event)
    (l : list (string * string)) :
  (forall k v, is_consent_event (ev k v) = false) ->
  Forall (fun e => is_consent_event e = false) (uncurry ev <$> l).
Proof.
  intros Hev. apply Forall_fmap, Forall_forall. intros [k v] _. apply Hev.
Qed.

(** C4. On a first [Start] the consent call, carrying [upload_to_server], is
    the first thing that happens on either path: every other effect of the
    call comes after it, none of them touches consent, and the last of them is
    the initialiser of the chosen backend.  From then on [GetUploadToServer]
    answers [upload_to_server] through any operations other than
    [setUploadToServer], and a [setUploadToServer] replaces it. *)
Theorem C4_Start_records_consent_first
    (os : OS) (env : Env) (a : StartArgs) (w : World) (ops : list Op) :
  g_crash_reporter_initialized w = false ->
  forallb (fun op => negb (is_setUploadToServer op)) ops = true ->
  let process_type := GetSwitchValueASCII env (kProcessType env) in
  (exists rest,
     trace (Start env a w)
     = trace w ++ SetCollectStatsConsent (upload_to_server a) :: rest
     /\ Forall (fun e => is_consent_event e = false) rest
     /\ last rest = Some (if IsCrashpadEnabled env
                          then InitializeCrashpad
                                 (std_string.empty process_type) process_type
                          else InitCrashReporter process_type))
  /\ GetUploadToServer (Start env a w) = upload_to_server a
  /\ GetUploadToServer (run os env ops (Start env a w)) = upload_to_server a
  /\ (forall upload,
        GetUploadToServer
          (SetUploadToServer upload (run os env ops (Start env a w)))
        = upload).
Proof.
  intros Hw Hops process_type.
  assert (Hget : GetUploadToServer (Start env a w) = upload_to_server a).
  { destruct (IsCrashpadEnabled env) eqn:He.
    - by rewrite Start_crashpad.
    - unfold GetUploadToServer. by rewrite Start_legacy_collab. }
  split; [|split; [done|split; [|done]]].
  - destruct (IsCrashpadEnabled env) eqn:He.
    + exists [InitializeCrashpad (std_string.empty process_type) process_type].
      rewrite Start_crashpad by done. simpl.
      rewrite <- app_assoc. repeat split. by repeat constructor.
    + eexists. rewrite Start_legacy_trace by done. simpl.
      split; [reflexivity|]. split.
      * constructor; [done|].
        rewrite !Forall_app. repeat split;
          try (by apply Forall_not_consent_fmap).
        by repeat constructor.
      * rewrite !app_assoc, !app_comm_cons. by rewrite last_snoc.
  - rewrite run_keeps_consent; [done|apply Start_initializes|done].
Qed.

(** ** The structured path *)

(** C5. With the structured backend enabled a first [Start] does two things
    only: it records consent and initialises the structured backend.  The
    global key table is as before, no crash key is set on any backend, no
    submission URL is set, and the resulting world is the same whatever
    [submit_url], [extra_global] and [extra] were. *)
Theorem C5_Start_crashpad_leaves_crash_keys_alone
    (env : Env) (a : StartArgs) (w : World) :
  g_crash_reporter_initialized w = false ->
  IsCrashpadEnabled env = true ->
  let process_type := GetSwitchValueASCII env (kProcessType env) in
  trace (Start env a w)
  = trace w ++ [SetCollectStatsConsent (upload_to_server a);
                InitializeCrashpad (std_string.empty process_type) process_type]
  /\ global_crash_keys (Start env a w) = global_crash_keys w
  /\ (forall url' extra_global' extra',
        Start env (mkStartArgs url' (crashes_directory a) (upload_to_server a)
                     (ignore_system_crash_handler a) (rate_limit a)
                     (compress a) extra_global' extra') w
        = Start env a w).
Proof.
  intros Hw He process_type. rewrite Start_crashpad by done.
  repeat split; simpl.
  - by rewrite <- app_assoc.
  - intros url' eg' e'. by rewrite Start_crashpad.
Qed.

(** C10. On the structured path the initialiser receives [true] as its first
    argument exactly when the process type read from the command line is the
    empty string, and that string itself as its second argument. *)
Theorem C10_InitializeCrashpad_arguments
    (env : Env) (a : StartArgs) (w : World) :
  g_crash_reporter_initialized w = false ->
  IsCrashpadEnabled env = true ->
  let process_type := GetSwitchValueASCII env (kProcessType env) in
  exists initial_client,
    trace (Start env a w)
    = trace w ++ [SetCollectStatsConsent (upload_to_server a);
                  InitializeCrashpad initial_client process_type]
    /\ (initial_client = true <-> process_type = "").
Proof.
  intros Hw He process_type.
  exists (std_string.empty process_type).
  rewrite Start_crashpad by done. simpl. rewrite <- app_assoc.
  repeat split; fold process_type; by destruct process_type.
Qed.

(** C9. [Start] never reads [crashes_directory],
    [ignore_system_crash_handler], [rate_limit] or [compress]: two calls whose
    arguments agree on [submit_url], [upload_to_server], [extra_global] and
    [extra] produce the same world from the same world, first call or not, on
    either backend path. *)
Theorem C9_Start_ignores_four_arguments
    (env : Env) (a1 a2 : StartArgs) (w : World) :
  submit_url a1 = submit_url a2 ->
  upload_to_server a1 = upload_to_server a2 ->
  extra_global a1 = extra_global a2 ->
  extra a1 = extra a2 ->
  Start env a1 w = Start env a2 w.
Proof.
  intros Hurl Hupload Hglobal Hextra. unfold Start.
  destruct (g_crash_reporter_initialized w); [done|].
  rewrite Hupload.
  destruct (IsCrashpadEnabled env); [done|].
  by rewrite Hurl, Hglobal, Hextra.
Qed.

(** ** The upload list *)

(** C6. On macOS and on Windows [CreateCrashUploadList] constructs the
    Crashpad list whatever else holds.  Elsewhere it constructs the Crashpad
    list when Crashpad is enabled, and otherwise the text-log list over the
    path that the crash-dump directory, as the path service left it, gives
    when the reporter-log file name is appended. *)
Theorem C6_CreateCrashUploadList_choice (os : OS) (env : Env) :
  CreateCrashUploadList os env =
    if decide (os = OS_MACOSX \/ os = OS_WIN) then CrashUploadListCrashpad
    else if IsCrashpadEnabled env then CrashUploadListCrashpad
    else TextLogUploadList
           (AppendASCII env (PathService_Get_DIR_CRASH_DUMPS env "").2
              (kReporterLogFilename env)).
Proof.
  destruct os; reflexivity.
Qed.

(** ** The key table *)

(** C7. Adding [k] with [v1] and then with [v2] leaves [k] bound to [v2] and
    to nothing else: the table is what a single addition of [v2] gives.
    Adding the same pair a second time does not change the table. *)
Theorem C7_AddExtraParameter_upsert (k v1 v2 : string) (w : World) :
  let table := crash_keys (collab w) in
  let table2 :=
    crash_keys (collab (AddExtraParameter k v2 (AddExtraParameter k v1 w))) in
  table2 !! k = Some v2
  /\ (forall v, table2 !! k = Some v -> v = v2)
  /\ (forall k', k' <> k -> table2 !! k' = table !! k')
  /\ table2 = crash_keys (collab (AddExtraParameter k v2 w))
  /\ crash_keys (collab (AddExtraParameter k v2
                           (AddExtraParameter k v2 w)))
     = crash_keys (collab (AddExtraParameter k v2 w)).
Proof.
  simpl. rewrite !insert_insert_eq, lookup_insert_eq. repeat split.
  - congruence.
  - intros k' Hk'. by rewrite lookup_insert_ne.
Qed.

(** C8. [RemoveExtraParameter] is a total function on worlds, with no error
    result.  On a key that is absent it leaves the key table as it was; on a
    key that is present it unbinds that key and leaves every other binding as
    it was. *)
Theorem C8_RemoveExtraParameter_absent_or_present (k : string) (w : World) :
  let table := crash_keys (collab w) in
  let table' := crash_keys (collab (RemoveExtraParameter k w)) in
  match table !! k with
  | None => table' = table
  | Some _ =>
      table' !! k = None /\ (forall k', k' <> k -> table' !! k' = table !! k')
  end.
Proof.
  simpl. destruct (crash_keys (collab w) !! k) eqn:Hk.
  - split; [apply lookup_delete_eq|]. intros k' Hk'. by rewrite lookup_delete_ne.
  - by apply delete_id.
Qed.

(** ** The theorems at the sample processes *)

Lemma C1_sample_run :
  forallb (fun op => negb (is_start op)) sample_before = true
  /\ IsCrashReporterEnabled
       (run OS_LINUX legacy_env sample_before (initial_world sample_store))
     = false
  /\ IsCrashReporterEnabled
       (run OS_LINUX legacy_env sample_after
          (Start legacy_env scenario_args
             (run OS_LINUX legacy_env sample_before
                (initial_world sample_store))))
     = true
  /\ starts legacy_env [scenario_args; other_args; scenario_args]
       (run OS_LINUX legacy_env sample_before (initial_world sample_store))
     = Start legacy_env scenario_args
         (run OS_LINUX legacy_env sample_before (initial_world sample_store)).
Proof.
  split; [reflexivity|].
  destruct (C1_only_first_Start_takes_effect OS_LINUX legacy_env sample_store
              sample_before sample_after scenario_args
              [other_args; scenario_args] eq_refl)
    as (Hbefore & _ & Hlater & Hstarts & _).
  split; [exact Hbefore|]. split; [exact Hlater|exact Hstarts].
Defined.

Lemma C3_sample_run :
  g_crash_reporter_initialized (initial_world sample_store) = false
  /\ IsCrashpadEnabled legacy_env = false
  /\ trace (Start legacy_env scenario_args (initial_world sample_store))
     = [SetCollectStatsConsent true;
        SetUploadURL "https://example.test/submit";
        GlobalCrashKeysAssign "env" "prod";
        SetCrashKey "build" "123";
        SetCrashKey "env" "prod";
        InitCrashReporter "renderer"]
  /\ global_crash_keys (Start legacy_env scenario_args (initial_world sample_store))
     = {["env" := "prod"]} ∪ ∅.
Proof.
  split; [reflexivity|]. split; [reflexivity|].
  destruct (C3_Start_legacy_steps_in_order legacy_env scenario_args
              (initial_world sample_store) eq_refl eq_refl)
    as (Htrace & Hglobal & _).
  split; [exact Htrace|exact Hglobal].
Defined.

Lemma C4_sample_run :
  g_crash_reporter_initialized (initial_world sample_store) = false
  /\ forallb (fun op => negb (is_setUploadToServer op)) sample_after = true
  /\ GetUploadToServer (initial_world sample_store) = false
  /\ GetUploadToServer
       (Start legacy_env scenario_args (initial_world sample_store))
     = true
  /\ GetUploadToServer
       (run OS_LINUX legacy_env sample_after
          (Start legacy_env scenario_args (initial_world sample_store)))
     = true.
Proof.
  split; [reflexivity|]. split; [reflexivity|]. split; [reflexivity|].
  destruct (C4_Start_records_consent_first OS_LINUX legacy_env scenario_args
              (initial_world sample_store) sample_after eq_refl eq_refl)
    as (_ & Hget & Hlater & _).
  split; [exact Hget|exact Hlater].
Defined.

Lemma C5_sample_run :
  g_crash_reporter_initialized (initial_world sample_store) = false
  /\ IsCrashpadEnabled crashpad_env = true
  /\ trace (Start crashpad_env scenario_args (initial_world sample_store))
     = [SetCollectStatsConsent true; InitializeCrashpad true ""]
  /\ global_crash_keys
       (Start crashpad_env scenario_args (initial_world sample_store))
     = ∅.
Proof.
  split; [reflexivity|]. split; [reflexivity|].
  destruct (C5_Start_crashpad_leaves_crash_keys_alone crashpad_env
              scenario_args (initial_world sample_store) eq_refl eq_refl)
    as (Htrace & Hglobal & _).
  split; [exact Htrace|exact Hglobal].
Defined.

Lemma C9_sample_run :
  submit_url scenario_args = submit_url scenario_args_varied
  /\ upload_to_server scenario_args = upload_to_server scenario_args_varied
  /\ extra_global scenario_args = extra_global scenario_args_varied
  /\ extra scenario_args = extra scenario_args_varied
  /\ crashes_directory scenario_args <> crashes_directory scenario_args_varied
  /\ Start legacy_env scenario_args (initial_world sample_store)
     = Start legacy_env scenario_args_varied (initial_world sample_store)
  /\ Start crashpad_env scenario_args (initial_world sample_store)
     = Start crashpad_env scenario_args_varied (initial_world sample_store).
Proof.
  repeat (split; [reflexivity|]). split; [discriminate|]. split.
  - exact (C9_Start_ignores_four_arguments legacy_env scenario_args
             scenario_args_varied (initial_world sample_store)
             eq_refl eq_refl eq_refl eq_refl).
  - exact (C9_Start_ignores_four_arguments crashpad_env scenario_args
             scenario_args_varied (initial_world sample_store)
             eq_refl eq_refl eq_refl eq_refl).
Defined.

Lemma C10_sample_run :
  g_crash_reporter_initialized (initial_world sample_store) = false
  /\ IsCrashpadEnabled crashpad_env = true
  /\ exists initial_client,
       trace (Start crashpad_env scenario_args (initial_world sample_store))
       = [SetCollectStatsConsent true; InitializeCrashpad initial_client ""]
       /\ (initial_client = true <-> "" = "").
Proof.
  split; [reflexivity|]. split; [reflexivity|].
  exact (C10_InitializeCrashpad_arguments crashpad_env scenario_args
           (initial_world sample_store) eq_refl eq_refl).
Defined.

(** ** Sample evaluations *)

Example GetUploadedReports_crashpad_store :
  trace (run_until_idle
           (GetUploadedReports OS_MACOSX legacy_env 7 (initial_world sample_store)))
  = [Run 7 [[("date", V8Date 1600000000%Z); ("id", V8String "abc123")]]].
Proof. reflexivity. Qed.

Example GetUploadedReports_missing_store :
  trace (run_until_idle
           (GetUploadedReports OS_LINUX legacy_env 7 (initial_world sample_store)))
  = [Run 7 []].
Proof. reflexivity. Qed.

Example GetUploadedReports_not_inline :
  trace (GetUploadedReports OS_LINUX legacy_env 7 (initial_world sample_store)) = [].
Proof. reflexivity. Qed.

Example GetUploadedReports_caps_at_100 :
  let store := fun _ => Some (replicate 250 (mkUploadInfo 5%Z "r")) in
  exists result,
    trace (run_until_idle
             (GetUploadedReports OS_WIN crashpad_env 3 (initial_world store)))
    = [Run 3 result]
    /\ length result = 100.
Proof. eexists. split; reflexivity. Qed.

Example CreateCrashUploadList_text_log :
  CreateCrashUploadList OS_LINUX legacy_env
  = TextLogUploadList "/tmp/crashes/uploads.log".
Proof. reflexivity. Qed.

Example AddExtraParameter_twice :
  crash_keys (collab (AddExtraParameter "build" "124"
                        (AddExtraParameter "build" "123"
                           (initial_world sample_store))))
  = {["build" := "124"]}.
Proof. reflexivity. Qed.

Example RemoveExtraParameter_absent :
  crash_keys (collab (RemoveExtraParameter "nope"
                        (AddExtraParameter "build" "123"
                           (initial_world sample_store))))
  = {["build" := "123"]}.
Proof. reflexivity. Qed.

Example Start_scenario_global_keys :
  GetGlobalCrashKeys
    (Start legacy_env scenario_args (initial_world sample_store))
  = {["env" := "prod"]}.
Proof. reflexivity. Qed.

Example pairs_of_ascending :
  pairs_of {["zz" := "1"; "build" := "2"; "Z" := "3"]}
  = [("Z", "3"); ("build", "2"); ("zz", "1")].
Proof. reflexivity. Qed.

(** * Further properties *)

(** ** The global key table *)

Lemma Start_crashpad_global (env : Env) (a : StartArgs) (w : World) :
  IsCrashpadEnabled env = true ->
  global_crash_keys (Start env a w) = global_crash_keys w.
Proof.
  intros He. unfold Start. rewrite He.
  by destruct (g_crash_reporter_initialized w).
Qed.

Lemma step_global_frame (os : OS) (env : Env) (op : Op) (w : World) :
  is_start op = false
  \/ g_crash_reporter_initialized w = true
  \/ IsCrashpadEnabled env = true ->
  global_crash_keys (step os env op w) = global_crash_keys w.
Proof.
  intros H. destruct op; simpl; try done.
  - destruct H as [H|[H|H]]; [done| |].
    + by rewrite Start_again.
    + by apply Start_crashpad_global.
  - unfold run_next_task. by destruct (pending w).
Qed.

Lemma run_global_frame (os : OS) (env : Env) (ops : list Op) (w : World) :
  forallb (fun op => negb (is_start op)) ops = true
  \/ g_crash_reporter_initialized w = true
  \/ IsCrashpadEnabled env = true ->
  global_crash_keys (run os env ops w) = global_crash_keys w.
Proof.
  revert w. induction ops as [|op ops IH]; intros w H; [done|].
  change (run os env (op :: ops) w) with (run os env ops (step os env op w)).
  rewrite IH.
  - apply step_global_frame. destruct H as [H|[H|H]]; auto.
    simpl in H. apply andb_prop in H as [H _]. left. by destruct (is_start op).
  - destruct H as [H|[H|H]]; auto.
    + simpl in H. apply andb_prop in H as [_ H]. by left.
    + right; left. by apply step_keeps_initialized.
Qed.

(** X1. The global key table is written by nothing but a [Start] that finds
    the flag unset and Crashpad disabled.  A run of operations leaves
    [GetGlobalCrashKeys] as it was if it holds no [start], or begins with the
    flag already set, or happens with Crashpad enabled; in particular
    [addExtraParameter] and [removeExtraParameter] never reach the table. *)
Theorem X1_global_keys_written_only_by_first_legacy_Start
    (os : OS) (env : Env) (ops : list Op) (w : World) :
  forallb (fun op => negb (is_start op)) ops = true
  \/ g_crash_reporter_initialized w = true
  \/ IsCrashpadEnabled env = true ->
  GetGlobalCrashKeys (run os env ops w) = GetGlobalCrashKeys w
  /\ forall k v k',
       GetGlobalCrashKeys
         (RemoveExtraParameter k' (AddExtraParameter k v (run os env ops w)))
       = GetGlobalCrashKeys w.
Proof.
  intros H. unfold GetGlobalCrashKeys.
  pose proof (run_global_frame os env ops w H) as Hrun.
  split; [exact Hrun|]. intros k v k'. simpl. exact Hrun.
Qed.

Lemma run_global_initialized (os : OS) (env : Env) (ops : list Op) (w : World) :
  g_crash_reporter_initialized w = true ->
  global_crash_keys (run os env ops w) = global_crash_keys w.
Proof.
  revert w. induction ops as [|op ops IH]; intros w Hw; simpl; [done|].
  rewrite IH by (by apply step_keeps_initialized).
  apply step_global_frame. auto.
Qed.

Lemma run_global_uninitialized (os : OS) (env : Env) (ops : list Op) (w : World) :
  g_crash_reporter_initialized w = false ->
  global_crash_keys (run os env ops w) =
    match first_start ops with
    | Some a =>
        if IsCrashpadEnabled env then global_crash_keys w
        else extra_global a ∪ global_crash_keys w
    | None => global_crash_keys w
    end.
Proof.
  revert w. induction ops as [|op ops IH]; intros w Hw; [done|].
  destruct (is_start op) eqn:Hop.
  - destruct op; try done. simpl.
    rewrite run_global_initialized by apply Start_initializes.
    destruct (IsCrashpadEnabled env) eqn:He.
    + by apply Start_crashpad_global.
    + by apply Start_legacy_global.
  - assert (Hstep : g_crash_reporter_initialized (step os env op w) = false)
      by (by rewrite step_keeps_uninitialized).
    assert (Hglobal : global_crash_keys (step os env op w) = global_crash_keys w).
    { apply step_global_frame. auto. }
    change (run os env (op :: ops) w) with (run os env ops (step os env op w)).
    rewrite (IH _ Hstep), Hglobal. by destruct op.
Qed.

(** X2. Whatever the process has done since it began, [GetGlobalCrashKeys]
    is the [extra_global] of the first [start] when Crashpad is disabled, and
    empty when Crashpad is enabled or no [start] has been made.  Later
    [start]s and all other operations do not show in it. *)
Theorem X2_GetGlobalCrashKeys_is_first_extra_global
    (os : OS) (env : Env) (store : UploadList -> option (list UploadInfo))
    (ops : list Op) :
  GetGlobalCrashKeys (run os env ops (initial_world store)) =
    match first_start ops with
    | Some a => if IsCrashpadEnabled env then ∅ else extra_global a
    | None => ∅
    end.
Proof.
  unfold GetGlobalCrashKeys. rewrite run_global_uninitialized by done. simpl.
  destruct (first_start ops); [|done].
  destruct (IsCrashpadEnabled env); [done|]. by rewrite (right_id_L ∅ (∪)).
Qed.

(** ** What the trace holds *)

Lemma filter_fmap_nil (f : Event -> bool) (ev : string -> string -> Event)
    (l : list (string * string)) :
  (forall k v, f (ev k v) = false) ->
  filter (fun e => f e = true) (uncurry ev <$> l) = [].
Proof.
  intros Hev. induction l as [|[k v] l IH]; [done|].
  rewrite fmap_cons, filter_cons. simpl. rewrite Hev, IH.
  by destruct (decide (false = true)).
Qed.

Lemma Start_legacy_filter (f : Event -> bool) (env : Env) (a : StartArgs)
    (w : World) :
  g_crash_reporter_initialized w = false ->
  IsCrashpadEnabled env = false ->
  (forall k v, f (GlobalCrashKeysAssign k v) = false) ->
  (forall k v, f (SetCrashKey k v) = false) ->
  filter (fun e => f e = true) (trace (Start env a w))
  = filter (fun e => f e = true) (trace w)
    ++ filter (fun e => f e = true)
         [SetCollectStatsConsent (upload_to_server a);
          SetUploadURL (submit_url a);
          InitCrashReporter (GetSwitchValueASCII env (kProcessType env))].
Proof.
  intros Hw He Hassign Hset. rewrite Start_legacy_trace by done.
  rewrite !filter_app, !filter_fmap_nil by done. simpl.
  change [SetCollectStatsConsent (upload_to_server a);
          SetUploadURL (submit_url a);
          InitCrashReporter (GetSwitchValueASCII env (kProcessType env))]
    with ([SetCollectStatsConsent (upload_to_server a);
           SetUploadURL (submit_url a)]
          ++ [InitCrashReporter (GetSwitchValueASCII env (kProcessType env))]).
  by rewrite filter_app.
Qed.

Lemma Start_filter_backend_init (env : Env) (a : StartArgs) (w : World) :
  filter (fun e => is_backend_init e = true) (trace (Start env a w))
  = filter (fun e => is_backend_init e = true) (trace w)
    ++ (if g_crash_reporter_initialized w then [] else [backend_init_event env]).
Proof.
  destruct (g_crash_reporter_initialized w) eqn:Hw.
  - rewrite Start_again by done. by rewrite app_nil_r.
  - unfold backend_init_event. destruct (IsCrashpadEnabled env) eqn:He.
    + rewrite Start_crashpad by done. simpl.
      by rewrite <- app_assoc, filter_app.
    + by rewrite Start_legacy_filter.
Qed.

Lemma step_filter_backend_init (os : OS) (env : Env) (op : Op) (w : World) :
  is_start op = false ->
  filter (fun e => is_backend_init e = true) (trace (step os env op w))
  = filter (fun e => is_backend_init e = true) (trace w).
Proof.
  intros Hop. destruct op; simpl; try done;
    try (rewrite filter_app; simpl; by rewrite app_nil_r).
  unfold run_next_task. destruct (pending w); [done|]. simpl.
  rewrite filter_app. simpl. by rewrite app_nil_r.
Qed.

Lemma run_filter_backend_init (os : OS) (env : Env) (ops : list Op) (w : World) :
  filter (fun e => is_backend_init e = true) (trace (run os env ops w))
  = filter (fun e => is_backend_init e = true) (trace w)
    ++ (if g_crash_reporter_initialized w then []
        else match first_start ops with
             | Some _ => [backend_init_event env]
             | None => []
             end).
Proof.
  revert w. induction ops as [|op ops IH]; intros w.
  - simpl. destruct (g_crash_reporter_initialized w); by rewrite app_nil_r.
  - change (run os env (op :: ops) w) with (run os env ops (step os env op w)).
    rewrite IH. destruct (is_start op) eqn:Hop.
    + destruct op; try done. simpl.
      rewrite Start_initializes, app_nil_r. apply Start_filter_backend_init.
    + rewrite step_filter_backend_init, step_keeps_uninitialized by done.
      by destruct op.
Qed.

Lemma run_flag_uninitialized (os : OS) (env : Env) (ops : list Op) (w : World) :
  g_crash_reporter_initialized w = false ->
  IsCrashReporterEnabled (run os env ops w)
  = match first_start ops with
    | Some _ => true
    | None => false
    end.
Proof.
  unfold IsCrashReporterEnabled.
  revert w. induction ops as [|op ops IH]; intros w Hw; [done|].
  change (run os env (op :: ops) w) with (run os env ops (step os env op w)).
  destruct (is_start op) eqn:Hop.
  - destruct op; try done. simpl.
    apply run_keeps_initialized, Start_initializes.
  - rewrite IH by (by rewrite step_keeps_uninitialized). by destruct op.
Qed.

(** X3. Over the whole life of the process a backend is initialised at most
    once: the trace holds no initialiser before the first [start], and from
    the first [start] on exactly one, that of the backend chosen by
    [IsCrashpadEnabled], with the process type of the command line.  No later
    [start] and no other operation initialises a backend again, and
    [IsCrashReporterEnabled] is true exactly when that one initialiser has
    been called. *)
Theorem X3_backend_initialised_once_by_first_start
    (os : OS) (env : Env) (store : UploadList -> option (list UploadInfo))
    (ops : list Op) :
  filter (fun e => is_backend_init e = true)
         (trace (run os env ops (initial_world store)))
  = match first_start ops with
    | Some _ => [backend_init_event env]
    | None => []
    end
  /\ length (filter (fun e => is_backend_init e = true)
                   (trace (run os env ops (initial_world store)))) <= 1
  /\ IsCrashReporterEnabled (run os env ops (initial_world store))
     = match first_start ops with
       | Some _ => true
       | None => false
       end.
Proof.
  rewrite run_filter_backend_init. simpl.
  split; [done|]. split; [destruct (first_start ops); simpl; lia|].
  by rewrite run_flag_uninitialized.
Qed.

Lemma Start_filter_consent (env : Env) (a : StartArgs) (w : World) :
  filter (fun e => is_consent_event e = true) (trace (Start env a w))
  = filter (fun e => is_consent_event e = true) (trace w)
    ++ (if g_crash_reporter_initialized w then []
        else [SetCollectStatsConsent (upload_to_server a)]).
Proof.
  destruct (g_crash_reporter_initialized w) eqn:Hw.
  - rewrite Start_again by done. by rewrite app_nil_r.
  - destruct (IsCrashpadEnabled env) eqn:He.
    + rewrite Start_crashpad by done. simpl.
      by rewrite <- app_assoc, filter_app.
    + by rewrite Start_legacy_filter.
Qed.

Lemma step_filter_consent (os : OS) (env : Env) (op : Op) (w : World) :
  is_start op = false ->
  is_setUploadToServer op = false ->
  filter (fun e => is_consent_event e = true) (trace (step os env op w))
  = filter (fun e => is_consent_event e = true) (trace w).
Proof.
  intros Hstart Hset. destruct op; simpl; try done;
    try (rewrite filter_app; simpl; by rewrite app_nil_r).
  unfold run_next_task. destruct (pending w); [done|]. simpl.
  rewrite filter_app. simpl. by rewrite app_nil_r.
Qed.

(** X4. Consent is handed to the client by [setUploadToServer] and by a
    [start] that finds the flag unset, and by nothing else: the consent calls
    that a run of operations adds to the trace are, in call order, one per
    [setUploadToServer] with its argument and one for the first [start] with
    its [upload_to_server].  A later [start] hands over nothing, whatever its
    [upload_to_server] says. *)
Theorem X4_consent_calls_of_a_run
    (os : OS) (env : Env) (ops : list Op) (w : World) :
  filter (fun e => is_consent_event e = true) (trace (run os env ops w))
  = filter (fun e => is_consent_event e = true) (trace w)
    ++ (SetCollectStatsConsent
          <$> consent_writes (g_crash_reporter_initialized w) ops).
Proof.
  revert w. induction ops as [|op ops IH]; intros w.
  - simpl. by rewrite app_nil_r.
  - change (run os env (op :: ops) w) with (run os env ops (step os env op w)).
    rewrite IH. destruct op;
      try (rewrite step_filter_consent, step_keeps_uninitialized by done;
           reflexivity).
    + simpl. rewrite Start_initializes, Start_filter_consent.
      destruct (g_crash_reporter_initialized w); simpl.
      * by rewrite app_nil_r.
      * by rewrite <- app_assoc.
    + simpl. rewrite filter_app. simpl. by rewrite <- app_assoc.
Qed.

Lemma Start_pending (env : Env) (a : StartArgs) (w : World) :
  pending (Start env a w) = pending w.
Proof.
  unfold Start. destruct (g_crash_reporter_initialized w); [done|].
  destruct (IsCrashpadEnabled env); simpl; [done|].
  unfold SetCrashKeysFromMap, for_each_pair.
  by rewrite !foldl_call_pending, foldl_assign_pending.
Qed.

(** X5. [Start] only ever adds: on either path, first call or not, it issues
    no [ClearCrashKey] and runs no callback, so crash keys set before it are
    not removed by it, and it leaves the posted loads as they were. *)
Theorem X5_Start_clears_nothing_and_runs_nothing
    (env : Env) (a : StartArgs) (w : World) :
  filter (fun e => is_clear_or_run e = true) (trace (Start env a w))
  = filter (fun e => is_clear_or_run e = true) (trace w)
  /\ pending (Start env a w) = pending w.
Proof.
  split; [|apply Start_pending].
  destruct (g_crash_reporter_initialized w) eqn:Hw.
  - by rewrite Start_again.
  - destruct (IsCrashpadEnabled env) eqn:He.
    + rewrite Start_crashpad by done. simpl.
      rewrite <- app_assoc, filter_app. simpl. by rewrite app_nil_r.
    + rewrite Start_legacy_filter by done. simpl. by rewrite app_nil_r.
Qed.

(** ** The global table against the backend *)

Lemma step_trace_extends (os : OS) (env : Env) (op : Op) (w : World) :
  exists added, trace (step os env op w) = trace w ++ added.
Proof.
  destruct op; simpl; try (eexists; reflexivity).
  - destruct (g_crash_reporter_initialized w) eqn:Hw.
    + exists []. by rewrite Start_again, app_nil_r.
    + destruct (IsCrashpadEnabled env) eqn:He.
      * rewrite Start_crashpad by done. simpl. rewrite <- app_assoc.
        eexists; reflexivity.
      * rewrite Start_legacy_trace by done. eexists; reflexivity.
  - exists []. by rewrite app_nil_r.
  - exists []. by rewrite app_nil_r.
  - unfold run_next_task. destruct (pending w).
    + exists []. by rewrite app_nil_r.
    + simpl. eexists; reflexivity.
Qed.

Lemma step_mirrored (os : OS) (env : Env) (op : Op) (w : World) :
  mirrored w -> mirrored (step os env op w).
Proof.
  intros Hw k v Hk.
  destruct (step_trace_extends os env op w) as [added Hadded].
  destruct (decide (is_start op = false
                    \/ g_crash_reporter_initialized w = true
                    \/ IsCrashpadEnabled env = true)) as [H|H].
  - rewrite step_global_frame in Hk by done.
    rewrite Hadded. apply elem_of_app. left. by apply Hw.
  - destruct op; try (exfalso; apply H; by left). simpl in *.
    destruct (g_crash_reporter_initialized w) eqn:Hflag;
      [exfalso; apply H; auto|].
    destruct (IsCrashpadEnabled env) eqn:He; [exfalso; apply H; auto|].
    rewrite Start_legacy_global in Hk by done.
    rewrite Start_legacy_trace by done.
    apply lookup_union_Some_raw in Hk as [Hk|[_ Hk]].
    + rewrite !elem_of_app. right; right; right; right; left.
      apply list_elem_of_fmap. exists (k, v). split; [done|].
      by apply elem_of_pairs_of.
    + apply elem_of_app. left. by apply Hw.
Qed.

Lemma run_mirrored (os : OS) (env : Env) (ops : list Op) (w : World) :
  mirrored w -> mirrored (run os env ops w).
Proof.
  revert w. induction ops as [|op ops IH]; intros w Hw; [done|].
  apply IH. by apply step_mirrored.
Qed.

(** X6. At every point of the process's life, each entry of the global key
    table has also been handed to the backend: if [GetGlobalCrashKeys] binds
    [k] to [v], then [SetCrashKey k v] was called. *)
Theorem X6_global_keys_were_set_on_the_backend
    (os : OS) (env : Env) (store : UploadList -> option (list UploadInfo))
    (ops : list Op) (k v : string) :
  GetGlobalCrashKeys (run os env ops (initial_world store)) !! k = Some v ->
  SetCrashKey k v ∈ trace (run os env ops (initial_world store)).
Proof.
  apply run_mirrored. intros k' v' Hk'. simpl in Hk'.
  by rewrite lookup_empty in Hk'.
Qed.

(** ** Crash keys from a map *)

Lemma length_pairs_of (m : gmap string string) : length (pairs_of m) = size m.
Proof. rewrite pairs_of_Permutation. apply length_map_to_list. Qed.

(** X7. [SetCrashKeysFromMap] makes one [SetCrashKey] call for each entry of
    the map and no other call: as many calls as the map has entries, no key
    twice, the keys going up, a pair being called exactly when the map holds
    it.  It touches neither the flag nor the global table nor the posted
    loads, and on the empty map it does nothing at all. *)
Theorem X7_SetCrashKeysFromMap_one_call_per_entry
    (m : gmap string string) (w : World) :
  (exists calls,
     trace (SetCrashKeysFromMap m w) = trace w ++ (uncurry SetCrashKey <$> calls)
     /\ length calls = size m
     /\ NoDup calls.*1
     /\ Sorted key_le calls
     /\ forall k v, (k, v) ∈ calls <-> m !! k = Some v)
  /\ g_crash_reporter_initialized (SetCrashKeysFromMap m w)
     = g_crash_reporter_initialized w
  /\ global_crash_keys (SetCrashKeysFromMap m w) = global_crash_keys w
  /\ pending (SetCrashKeysFromMap m w) = pending w
  /\ SetCrashKeysFromMap ∅ w = w.
Proof.
  unfold SetCrashKeysFromMap, for_each_pair. repeat split.
  - exists (pairs_of m). repeat split.
    + apply foldl_call_trace.
    + apply length_pairs_of.
    + apply NoDup_fst_pairs_of.
    + apply pairs_of_Sorted.
    + by apply elem_of_pairs_of.
    + by apply elem_of_pairs_of.
  - apply foldl_call_flag.
  - apply foldl_call_global.
  - apply foldl_call_pending.
Qed.

Lemma last_SetCrashKey_from_app (acc : option string) (key : string)
    (tr1 tr2 : list Event) :
  last_SetCrashKey_from acc key (tr1 ++ tr2)
  = last_SetCrashKey_from (last_SetCrashKey_from acc key tr1) key tr2.
Proof. apply foldl_app. Qed.

Lemma last_SetCrashKey_from_assigns (acc : option string) (key : string)
    (l : list (string * string)) :
  last_SetCrashKey_from acc key (uncurry GlobalCrashKeysAssign <$> l) = acc.
Proof. revert acc. induction l as [|[k v] l IH]; intros acc; [done|]. apply IH. Qed.

Lemma last_SetCrashKey_from_sets (acc : option string) (key : string)
    (l : list (string * string)) :
  last_SetCrashKey_from acc key (uncurry SetCrashKey <$> l)
  = match foldl (fun t p => <[p.1:=p.2]> t) (∅ : gmap string string) l !! key with
    | Some v => Some v
    | None => acc
    end.
Proof.
  induction l as [|[k v] l IH] using rev_ind.
  - simpl. by rewrite lookup_empty.
  - rewrite fmap_app, last_SetCrashKey_from_app, IH, foldl_snoc. simpl.
    destruct (decide (k = key)) as [->|Hne].
    + by rewrite lookup_insert_eq.
    + by rewrite lookup_insert_ne.
Qed.

Lemma last_SetCrashKey_from_pairs_of (acc : option string) (key : string)
    (m : gmap string string) :
  last_SetCrashKey_from acc key (uncurry SetCrashKey <$> pairs_of m)
  = match m !! key with
    | Some v => Some v
    | None => acc
    end.
Proof.
  rewrite last_SetCrashKey_from_sets, foldl_insert_pairs_of.
  by rewrite (right_id_L ∅ (∪)).
Qed.

(** X8. When [extra] and [extra_global] bind the same key, the value of
    [extra_global] is the one the backend is left with: among the calls that
    a first [Start] on the legacy path makes, the last [SetCrashKey] for a key
    carries its value in [extra_global] if it has one, its value in [extra]
    otherwise, and there is no such call for a key in neither map. *)
Theorem X8_extra_global_is_set_last
    (env : Env) (a : StartArgs) (w : World) (key : string) :
  g_crash_reporter_initialized w = false ->
  IsCrashpadEnabled env = false ->
  last_SetCrashKey key (drop (length (trace w)) (trace (Start env a w)))
  = (extra_global a ∪ extra a) !! key.
Proof.
  intros Hw He. rewrite Start_legacy_trace, drop_app_length by done.
  unfold last_SetCrashKey.
  rewrite !last_SetCrashKey_from_app, last_SetCrashKey_from_assigns,
    !last_SetCrashKey_from_pairs_of.
  simpl. rewrite lookup_union.
  by destruct (extra_global a !! key), (extra a !! key).
Qed.

(** ** The objects handed to the callback *)



(** ** The environment *)

(** X10. [CreateCrashUploadList] does not look at whether the path service
    found the crash-dump directory.  Off macOS and Windows with Crashpad
    disabled it constructs the text-log list over whatever the lookup left in
    the path, joined with the log file name; after a lookup that failed and
    left the path empty, that is the log file name joined to the empty
    path. *)
Theorem X10_CreateCrashUploadList_ignores_lookup_result
    (env : Env) (found : bool) (crash_dir_path : FilePath) :
  IsCrashpadEnabled env = false ->
  PathService_Get_DIR_CRASH_DUMPS env "" = (found, crash_dir_path) ->
  CreateCrashUploadList OS_LINUX env
  = TextLogUploadList
      (AppendASCII env crash_dir_path (kReporterLogFilename env))
  /\ forall callback w,
       pending (GetUploadedReports OS_LINUX env callback w)
       = pending w
         ++ [mkTask (TextLogUploadList
                       (AppendASCII env crash_dir_path (kReporterLogFilename env)))
                    callback].
Proof.
  intros He Hget.
  assert (Hlist : CreateCrashUploadList OS_LINUX env
                  = TextLogUploadList
                      (AppendASCII env crash_dir_path (kReporterLogFilename env))).
  { simpl. by rewrite He, Hget. }
  split; [exact Hlist|]. intros callback w.
  unfold GetUploadedReports. by rewrite Hlist.
Qed.

(** X11. Of its environment [Start] reads only whether Crashpad is enabled
    and the value of the process-type switch: in two environments that agree
    on these it does the same, whatever the path service, the log file name
    and the other switches are. *)
Theorem X11_Start_reads_two_things_of_the_environment
    (env1 env2 : Env) (a : StartArgs) (w : World) :
  IsCrashpadEnabled env1 = IsCrashpadEnabled env2 ->
  GetSwitchValueASCII env1 (kProcessType env1)
  = GetSwitchValueASCII env2 (kProcessType env2) ->
  Start env1 a w = Start env2 a w.
Proof.
  intros He Hswitch. unfold Start.
  destruct (g_crash_reporter_initialized w); [done|].
  by rewrite He, Hswitch.
Qed.

(** ** The exports *)

Section Exports.
Context {Dict V : Type}.
Variable SetMethod : string -> BoundFunction -> Dict -> Dict.
Variable Get : string -> Dict -> V.
Variable method : BoundFunction -> V.

(** What is asked of the dictionary: [SetMethod] sets the property it names
    to the bound function and leaves the other properties alone. *)
Hypothesis Get_SetMethod_eq :
  forall name f dict, Get name (SetMethod name f dict) = method f.
Hypothesis Get_SetMethod_ne :
  forall name name' f dict,
    name <> name' -> Get name' (SetMethod name f dict) = Get name' dict.

(** X12. On such a dictionary [Initialize] installs its six functions under
    six different names, so that none of the six bindings is lost to a later
    one: each operation's name resolves to the function bound for it,
    whatever the exports held before.  Every other property of the exports,
    [getParameters] among them, is left as it was. *)
Theorem X12_Initialize_installs_six_methods (dict : Dict) :
  (forall op name f,
     op_binding op = Some (name, f) ->
     Get name (Initialize SetMethod dict) = method f)
  /\ (forall name,
        name ∉ exported_names ->
        Get name (Initialize SetMethod dict) = Get name dict)
  /\ Get "getParameters" (Initialize SetMethod dict) = Get "getParameters" dict
  /\ NoDup exported_names.
Proof.
  assert (Hother : forall name,
            name ∉ exported_names ->
            Get name (Initialize SetMethod dict) = Get name dict).
  { intros name Hname. unfold exported_names in Hname.
    rewrite !not_elem_of_cons in Hname.
    destruct Hname as (H1 & H2 & H3 & H4 & H5 & H6 & _).
    unfold Initialize. by rewrite !Get_SetMethod_ne. }
  split; [|split; [exact Hother|split]].
  - intros op name f Hop. unfold Initialize.
    destruct op; simpl in Hop; inversion Hop; subst; clear Hop;
      repeat first [ rewrite Get_SetMethod_eq; reflexivity
                   | rewrite Get_SetMethod_ne by discriminate ].
  - apply Hother. unfold exported_names. rewrite !not_elem_of_cons.
    repeat split; try discriminate. apply not_elem_of_nil.
  - apply (bool_decide_unpack (NoDup exported_names)). by vm_compute.
Qed.
End Exports.

(** ** The further properties at the sample processes *)

Lemma X1_sample_run :
  g_crash_reporter_initialized
    (Start legacy_env scenario_args (initial_world sample_store)) = true
  /\ GetGlobalCrashKeys
       (run OS_LINUX legacy_env
          [start other_args; addExtraParameter "env" "x";
           removeExtraParameter "env"]
          (Start legacy_env scenario_args (initial_world sample_store)))
     = {["env" := "prod"]}.
Proof.
  split; [reflexivity|].
  exact (proj1 (X1_global_keys_written_only_by_first_legacy_Start
                  OS_LINUX legacy_env
                  [start other_args; addExtraParameter "env" "x";
                   removeExtraParameter "env"]
                  (Start legacy_env scenario_args (initial_world sample_store))
                  (or_intror (or_introl eq_refl)))).
Defined.

Lemma X6_sample_run :
  GetGlobalCrashKeys
    (run OS_LINUX legacy_env
       [start scenario_args; removeExtraParameter "env"]
       (initial_world sample_store)) !! "env" = Some "prod"
  /\ SetCrashKey "env" "prod"
     ∈ trace (run OS_LINUX legacy_env
                [start scenario_args; removeExtraParameter "env"]
                (initial_world sample_store)).
Proof.
  split; [reflexivity|].
  exact (X6_global_keys_were_set_on_the_backend OS_LINUX legacy_env
           sample_store [start scenario_args; removeExtraParameter "env"]
           "env" "prod" eq_refl).
Defined.

Lemma X8_sample_run :
  g_crash_reporter_initialized (initial_world sample_store) = false
  /\ IsCrashpadEnabled legacy_env = false
  /\ last_SetCrashKey "env"
       (trace (Start legacy_env clashing_args (initial_world sample_store)))
     = Some "prod"
  /\ last_SetCrashKey "build"
       (trace (Start legacy_env clashing_args (initial_world sample_store)))
     = Some "123"
  /\ last_SetCrashKey "absent"
       (trace (Start legacy_env clashing_args (initial_world sample_store)))
     = None.
Proof.
  split; [reflexivity|]. split; [reflexivity|]. split; [|split].
  - exact (X8_extra_global_is_set_last legacy_env clashing_args
             (initial_world sample_store) "env" eq_refl eq_refl).
  - exact (X8_extra_global_is_set_last legacy_env clashing_args
             (initial_world sample_store) "build" eq_refl eq_refl).
  - exact (X8_extra_global_is_set_last legacy_env clashing_args
             (initial_world sample_store) "absent" eq_refl eq_refl).
Defined.

Lemma X10_sample_run :
  IsCrashpadEnabled unresolved_env = false
  /\ PathService_Get_DIR_CRASH_DUMPS unresolved_env "" = (false, "")
  /\ CreateCrashUploadList OS_LINUX unresolved_env
     = TextLogUploadList "uploads.log".
Proof.
  split; [reflexivity|]. split; [reflexivity|].
  exact (proj1 (X10_CreateCrashUploadList_ignores_lookup_result
                  unresolved_env false "" eq_refl eq_refl)).
Defined.

Lemma X11_sample_run :
  IsCrashpadEnabled legacy_env = IsCrashpadEnabled unresolved_env
  /\ GetSwitchValueASCII legacy_env (kProcessType legacy_env)
     = GetSwitchValueASCII unresolved_env (kProcessType unresolved_env)
  /\ Start legacy_env scenario_args (initial_world sample_store)
     = Start unresolved_env scenario_args (initial_world sample_store).
Proof.
  split; [reflexivity|]. split; [reflexivity|].
  exact (X11_Start_reads_two_things_of_the_environment legacy_env
           unresolved_env scenario_args (initial_world sample_store)
           eq_refl eq_refl).
Defined.

Lemma X12_sample_exports :
  (forall name f dict, gmap_SetMethod name f dict !! name = Some f)
  /\ (forall name name' f dict,
        name <> name' -> gmap_SetMethod name f dict !! name' = dict !! name')
  /\ Initialize gmap_SetMethod {["start" := bind_GetUploadToServer]} !! "start"
     = Some bind_Start
  /\ Initialize gmap_SetMethod {["start" := bind_GetUploadToServer]}
       !! "addExtraParameter"
     = Some bind_SetCrashKey
  /\ Initialize gmap_SetMethod {["start" := bind_GetUploadToServer]}
       !! "getParameters"
     = None.
Proof.
  split; [intros; apply lookup_insert_eq|].
  split; [intros; by apply lookup_insert_ne|].
  destruct (X12_Initialize_installs_six_methods gmap_SetMethod
              (fun name dict => dict !! name) Some
              (fun name f dict => lookup_insert_eq dict name f)
              (fun name name' f dict Hne => lookup_insert_ne dict name name' f Hne)
              {["start" := bind_GetUploadToServer]})
    as (Hbound & _ & Hother & _).
  split; [exact (Hbound (start scenario_args) _ _ eq_refl)|].
  split; [exact (Hbound (addExtraParameter "" "") _ _ eq_refl)|exact Hother].
Defined.
